(** * BSL track server: measurement validation and persistence

    A shallow embedding of [bsl_track_server/bsl.py] (the pydantic request
    schema, the SQLAlchemy model with its five operations, and the FastAPI
    routes) and of the alembic migration that creates the table, followed
    by the properties of the specification that were checked against it. *)

From stdpp Require Import gmap strings list fin_maps pretty.

Local Open Scope Z_scope.

(** ** Python values used by the schema *)

(** [decimal.Decimal]: a signed coefficient with a power-of-ten exponent
    (the number [coefficient * 10 ^ exponent]), or one of the specials. *)
Inductive Decimal : Type :=
| Finite (coefficient exponent : Z)
| Infinity (negative : bool)
| NaN.

(** A binary64 float with significand [m] and binary exponent [-k]
    is the rational [m / 2 ^ k]; [Decimal(float)] converts it exactly:
    [m / 2^k = m * 5^k / 10^k]. *)
Definition Decimal_from_float (m : Z) (k : nat) : Decimal :=
  Finite (m * 5 ^ Z.of_nat k) (- Z.of_nat k).

(** The float literal [0.1] is [3602879701896397 / 2 ^ 55]. *)
Definition float_0_1_significand : Z := 3602879701896397.
Definition float_0_1_scale : nat := 55.

(** [Decimal(0.1)], the constant written as [multiple_of] on the field. *)
Definition Decimal_0_1_from_float : Decimal :=
  Eval cbv in Decimal_from_float float_0_1_significand float_0_1_scale.

(** [Decimal("0.1")], the constant the field does not name. *)
Definition Decimal_0_1_from_str : Decimal := Finite 1 (-1).

(** Both operands rewritten over their common (smaller) exponent. *)
Definition align (c1 e1 c2 e2 : Z) : Z * Z :=
  let e := Z.min e1 e2 in (c1 * 10 ^ (e1 - e), c2 * 10 ^ (e2 - e)).

(** Numeric comparison of decimals; [None] when a NaN is involved. *)
Definition Decimal_compare (x y : Decimal) : option comparison :=
  match x, y with
  | NaN, _ | _, NaN => None
  | Infinity n1, Infinity n2 =>
      Some (if n1 then (if n2 then Eq else Lt) else (if n2 then Gt else Eq))
  | Infinity n, Finite _ _ => Some (if n then Lt else Gt)
  | Finite _ _, Infinity n => Some (if n then Gt else Lt)
  | Finite c1 e1, Finite c2 e2 =>
      let '(a, b) := align c1 e1 c2 e2 in Some (a ?= b)
  end.

(** [x >= y] and [x <= y] on decimals (false on NaN). *)
Definition Decimal_ge (x y : Decimal) : bool :=
  match Decimal_compare x y with
  | Some Lt | None => false
  | Some _ => true
  end.

Definition Decimal_le (x y : Decimal) : bool :=
  match Decimal_compare x y with
  | Some Gt | None => false
  | Some _ => true
  end.

(** [x] is an integer multiple of [m]: the quotient [x / m] has no
    fractional part.  (A validator that divides at 28 significant digits
    finds a zero fraction in the same cases, for the tenths between 0 and
    100 and the [multiple_of] written on the field.) *)
Definition Decimal_is_multiple (x m : Decimal) : bool :=
  match x, m with
  | Finite c1 e1, Finite c2 e2 =>
      let '(a, b) := align c1 e1 c2 e2 in
      negb (b =? 0) && (a mod b =? 0)
  | _, _ => false
  end.

(** Fractional digits left once trailing zeros are dropped, for a
    coefficient [c] written with [n] fractional digits. *)
Fixpoint fractional_digits (n : nat) (c : Z) : nat :=
  match n with
  | O => O
  | S n' => if c mod 10 =? 0 then fractional_digits n' (c / 10) else n
  end.

(** Decimal places of the normalized number, as the validator counts them. *)
Definition Decimal_places (x : Decimal) : nat :=
  match x with
  | Finite c e => fractional_digits (Z.to_nat (- e)) c
  | _ => O
  end.

Definition Decimal_is_finite (x : Decimal) : bool :=
  match x with Finite _ _ => true | _ => false end.

(** ** binary64 floats and the [DECIMAL(scale=1)] column *)

(** A binary64 float: the number [m * 2 ^ e], or a special. *)
Inductive binary64 : Type :=
| Float (m e : Z)
| FloatInf (negative : bool)
| FloatNaN.

(** The integer nearest to [num / den], ties to the even one
    ([num >= 0], [den > 0]). *)
Definition round_half_even (num den : Z) : Z :=
  let q := num / den in
  match 2 * (num mod den) ?= den with
  | Lt => q
  | Gt => q + 1
  | Eq => if Z.even q then q else q + 1
  end.

(** The float nearest to the positive rational [p / q]: a significand of
    53 bits, fewer below the exponent -1074, infinity past the exponent
    971. *)
Definition binary64_of_ratio (p q : Z) : binary64 :=
  let e0 := Z.log2 p - Z.log2 q - 52 in
  let e1 :=
    if 2 ^ 52 * q * 2 ^ Z.max e0 0 <=? p * 2 ^ Z.max (- e0) 0 then e0 else e0 - 1 in
  let e := Z.max e1 (-1074) in
  let m := round_half_even (p * 2 ^ Z.max (- e) 0) (q * 2 ^ Z.max e 0) in
  let '(m', e') := if m =? 2 ^ 53 then (2 ^ 52, e + 1) else (m, e) in
  if 971 <? e' then FloatInf false else Float m' e'.

(** [float(x)] for a decimal [x]: the nearest float. *)
Definition Decimal_to_float (x : Decimal) : binary64 :=
  match x with
  | Finite c e =>
      if c =? 0 then Float 0 0
      else
        match binary64_of_ratio (Z.abs c * 10 ^ Z.max e 0) (10 ^ Z.max (- e) 0) with
        | Float m e' => Float (Z.sgn c * m) e'
        | FloatInf _ => FloatInf (c <? 0)
        | FloatNaN => FloatNaN
        end
  | Infinity n => FloatInf n
  | NaN => FloatNaN
  end.

(** [Decimal("%.1f" % f)]: the float written with one fractional digit,
    the exact value of the float rounded to the nearest tenth, ties to
    even. *)
Definition format_1f (f : binary64) : Decimal :=
  match f with
  | Float m e =>
      Finite (Z.sgn m * round_half_even (Z.abs m * 10 * 2 ^ Z.max e 0)
                                        (2 ^ Z.max (- e) 0)) (-1)
  | FloatInf n => Infinity n
  | FloatNaN => NaN
  end.

(** Modelled from the spec: the database engine behind
    [bsl_track_server.database] is not part of the sources; the store
    holds a decimal value with one fractional digit.  A value written to
    the [DECIMAL(scale=1)] column of the engine that [db_path] names is
    bound as a float and read back formatted to the scale of the column. *)
Definition DECIMAL_scale_1 (x : Decimal) : Decimal :=
  format_1f (Decimal_to_float x).

(** [datetime.date] and [datetime.time]. *)
Record datetime_date : Type := Date { year : Z; month : Z; day : Z }.
Record datetime_time : Type :=
  Time { hour : Z; minute : Z; second : Z; microsecond : Z }.

(** ** [MeasurementTypes] *)

Inductive MeasurementTypes : Type := FASTING | RANDOM.

(** The value of each member. *)
Definition MeasurementTypes_value (t : MeasurementTypes) : string :=
  match t with
  | FASTING => "fasting"
  | RANDOM => "random"
  end.

(** Lookup of a member by value, [MeasurementTypes(s)]: the member whose
    value equals [s], none otherwise. *)
Definition MeasurementTypes_of_value (s : string) : option MeasurementTypes :=
  if String.eqb s (MeasurementTypes_value FASTING) then Some FASTING
  else if String.eqb s (MeasurementTypes_value RANDOM) then Some RANDOM
  else None.

(** ** [condecimal] *)

(** The constraint that rejected a decimal. *)
Inductive DecimalError : Type :=
| finite_number
| decimal_max_places
| multiple_of
| less_than_equal
| greater_than_equal.

(** [condecimal(ge=, le=, multiple_of=, decimal_places=, allow_inf_nan=)]:
    the first violated constraint, or [None] when the decimal passes. *)
Definition condecimal (ge le mult : Decimal) (decimal_places : option nat)
    (allow_inf_nan : bool) (x : Decimal) : option DecimalError :=
  let check_digits := bool_decide (is_Some decimal_places) in
  if (negb allow_inf_nan || check_digits) && negb (Decimal_is_finite x)
  then Some finite_number
  else if match decimal_places with
          | Some d => (d <? Decimal_places x)%nat
          | None => false
          end
  then Some decimal_max_places
  else if negb (Decimal_is_multiple x mult) then Some multiple_of
  else if negb (Decimal_le x le) then Some less_than_equal
  else if negb (Decimal_ge x ge) then Some greater_than_equal
  else None.

(** ** [BslMeasurementSchema] *)

(** A request body as decoded from JSON: every key may be missing, and
    a key that is there holds a value of the JSON type of its field. *)
Record Body : Type := {
  body_id : option Z;
  body_bsl : option Decimal;
  body_type : option string;
  body_date : option datetime_date;
  body_time : option datetime_time
}.

(** One entry of a pydantic [ValidationError]: the field and the
    constraint it broke. *)
Inductive ErrorType : Type :=
| missing
| enum
| decimal_error (e : DecimalError).

Definition ValidationError : Type := list (string * ErrorType).

Module BslMeasurementSchema.

(** An instance of the schema; in the program an instance is always the
    result of a validation. *)
Record t : Type := {
  id : option Z;
  bsl : Decimal;
  type : MeasurementTypes;
  date : datetime_date;
  time : datetime_time
}.

(** The metadata written on the [bsl] field,
    [condecimal(ge=0, le=100, multiple_of=Decimal(0.1), decimal_places=1,
    allow_inf_nan=False)], as the constraints it declares. *)
Definition bsl_annotation : Decimal -> option DecimalError :=
  condecimal (Finite 0 0) (Finite 100 0) Decimal_0_1_from_float (Some 1%nat) false.

(** The constraint in force on the [bsl] field.  The [condecimal(...)]
    call is itself an [Annotated] alias, and in
    [Annotated[Decimal, condecimal(...)]] it stands where metadata goes:
    no constraint is read from it there, and the field is validated as a
    plain [Decimal], which has to be finite. *)
Definition bsl_constraint (x : Decimal) : option DecimalError :=
  if Decimal_is_finite x then None else Some finite_number.

Definition validate_bsl (v : option Decimal) : ErrorType + Decimal :=
  match v with
  | None => inl missing
  | Some x =>
      match bsl_constraint x with
      | Some e => inl (decimal_error e)
      | None => inr x
      end
  end.

(** [type] has the default [MeasurementTypes.FASTING]. *)
Definition validate_type (v : option string) : ErrorType + MeasurementTypes :=
  match v with
  | None => inr FASTING
  | Some s =>
      match MeasurementTypes_of_value s with
      | Some m => inr m
      | None => inl enum
      end
  end.

(** [date] and [time] have no default: they are required. *)
Definition validate_required {A : Type} (v : option A) : ErrorType + A :=
  match v with
  | None => inl missing
  | Some x => inr x
  end.

Definition errors_of {A : Type} (field : string) (r : ErrorType + A)
    : ValidationError :=
  match r with
  | inl e => [(field, e)]
  | inr _ => []
  end.

(** Validation of a request body into a schema instance; on failure
    the errors of all fields, in field order. *)
Definition model_validate (b : Body) : ValidationError + t :=
  match validate_bsl (body_bsl b), validate_type (body_type b),
        validate_required (body_date b), validate_required (body_time b) with
  | inr v, inr ty, inr d, inr tm =>
      inr {| id := body_id b; bsl := v; type := ty; date := d; time := tm |}
  | rb, rt, rd, rtm =>
      inl (errors_of "bsl" rb ++ errors_of "type" rt
           ++ errors_of "date" rd ++ errors_of "time" rtm)
  end.

End BslMeasurementSchema.


(** ** The [bsls] table *)

(** Column types and server defaults used by the model and the migration. *)
Inductive ColumnType : Type :=
| Integer
| DECIMAL (scale : nat)
| SaEnum (names : list string)
| SaDate
| SaTime.

Inductive ServerDefault : Type := current_date | current_time.

(** A column declaration; [nullable] is the effective flag (when it is
    not given it is [True] except on a primary key), [autoincrement] is
    [None] where the declaration leaves it out. *)
Record Column : Type := {
  name : string;
  type_ : ColumnType;
  primary_key : bool;
  autoincrement : option bool;
  nullable : bool;
  server_default : option ServerDefault
}.

(** The columns mapped by [BslMeasurementModel]. *)
Definition model_columns : list Column := [
  {| name := "id"; type_ := Integer; primary_key := true;
     autoincrement := Some true; nullable := false; server_default := None |};
  {| name := "bsl"; type_ := DECIMAL 1; primary_key := false;
     autoincrement := None; nullable := false; server_default := None |};
  {| name := "type"; type_ := SaEnum ["FASTING"; "RANDOM"]; primary_key := false;
     autoincrement := None; nullable := false; server_default := None |};
  {| name := "date"; type_ := SaDate; primary_key := false;
     autoincrement := None; nullable := false;
     server_default := Some current_date |};
  {| name := "time"; type_ := SaTime; primary_key := false;
     autoincrement := None; nullable := false;
     server_default := Some current_time |}
].

(** The columns of the table created by [upgrade] of revision
    02dbe609b6f5. *)
Definition upgrade_columns : list Column := [
  {| name := "id"; type_ := Integer; primary_key := true;
     autoincrement := None; nullable := false; server_default := None |};
  {| name := "bsl"; type_ := DECIMAL 1; primary_key := false;
     autoincrement := None; nullable := true; server_default := None |};
  {| name := "date"; type_ := SaDate; primary_key := false;
     autoincrement := None; nullable := true;
     server_default := Some current_date |};
  {| name := "time"; type_ := SaTime; primary_key := false;
     autoincrement := None; nullable := true;
     server_default := Some current_time |}
].

Definition column_names (cols : list Column) : list string := name <$> cols.

(** The declaration of the column called [n], if there is one. *)
Definition find_column (n : string) (cols : list Column) : option Column :=
  List.find (fun c => String.eqb (name c) n) cols.

(** The non-key columns of a stored row as a select returns them; the
    key of the row in the table is its [id].  The [bsl] of a row is what
    the [DECIMAL(scale=1)] column gives back for the value written. *)
Record Row : Type := {
  row_bsl : Decimal;
  row_type : MeasurementTypes;
  row_date : datetime_date;
  row_time : datetime_time
}.

(** The table as the model maps it: primary key to row. *)
Abbreviation Table := (gmap Z Row).

(** The reading of the database clock at a statement. *)
Record Clock : Type := { today : datetime_date; time_of_day : datetime_time }.

(** Modelled from the spec: the database engine behind
    [bsl_track_server.database] is not part of the sources; the store
    assigns a fresh, store-unique integer id on creation.  As for an
    integer primary key, the new id is one more than the largest id in
    the table, and 1 in an empty table. *)
Definition next_id (tbl : Table) : Z :=
  1 + map_fold (fun k _ acc => Z.max k acc) 0 tbl.

(** ** Exceptions and sessions *)

(** [DatabaseError(error=..., message=...)]; the class is declared in
    [bsl_track_server.database], so [error] is [None] where the raise
    site leaves it to the constructor's default. *)
Inductive Exception : Type :=
| DatabaseError (error : option string) (message : string)
| InvalidRequestError (message : string).

(** A unit of work on a session: it runs on the table and returns a value
    or raises, together with the committed table. *)
Definition Session (A : Type) : Type := Table -> (Exception + A) * Table.

Definition ret {A : Type} (x : A) : Session A := fun tbl => (inr x, tbl).

Definition raise {A : Type} (e : Exception) : Session A :=
  fun tbl => (inl e, tbl).

Definition bind {A B : Type} (c : Session A) (f : A -> Session B) : Session B :=
  fun tbl =>
    match c tbl with
    | (inl e, tbl') => (inl e, tbl')
    | (inr x, tbl') => f x tbl'
    end.

#[global] Instance Session_ret : MRet Session := @ret.
#[global] Instance Session_bind : MBind Session := fun A B f c => bind c f.


(** ** [BslMeasurementModel] *)

Module BslMeasurementModel.

(** A persistent instance: a row of the table with its primary key. *)
Record t : Type := {
  id : Z;
  bsl : Decimal;
  type : MeasurementTypes;
  date : datetime_date;
  time : datetime_time
}.

Definition load (k : Z) (r : Row) : t :=
  {| id := k; bsl := row_bsl r; type := row_type r;
     date := row_date r; time := row_time r |}.

(** The values of an INSERT; a date or time that is not given is
    filled in by the server default of its column. *)
Record Values : Type := {
  v_bsl : Decimal;
  v_type : MeasurementTypes;
  v_date : option datetime_date;
  v_time : option datetime_time
}.

(** The keyword arguments of the constructor call in [create], taken
    from [measurement.model_dump()]: every field of the schema instance
    is passed on; the id is known to be null there. *)
Definition of_dump (m : BslMeasurementSchema.t) : Values :=
  {| v_bsl := BslMeasurementSchema.bsl m;
     v_type := BslMeasurementSchema.type m;
     v_date := Some (BslMeasurementSchema.date m);
     v_time := Some (BslMeasurementSchema.time m) |}.

Definition insert_row (now : Clock) (v : Values) : Row :=
  {| row_bsl := DECIMAL_scale_1 (v_bsl v); row_type := v_type v;
     row_date := default (today now) (v_date v);
     row_time := default (time_of_day now) (v_time v) |}.

(** [db.scalar(select(cls).where(cls.id == k))] *)
Definition scalar_by_id (k : Z) : Session (option t) :=
  fun tbl => (inr (load k <$> tbl !! k), tbl).

(** [db.add(record); db.commit()]: the row is inserted under a new id. *)
Definition add_commit (now : Clock) (v : Values) : Session Z :=
  fun tbl => let k := next_id tbl in (inr k, <[k := insert_row now v]> tbl).

(** [db.refresh(record)]: the instance is read again from its row. *)
Definition refresh (k : Z) : Session t :=
  record ← scalar_by_id k;
  match record with
  | None => raise (InvalidRequestError "Could not refresh instance")
  | Some r => mret r
  end.

(** The [setattr] loop over [measurement.model_dump()] followed by
    [db.commit()]: the row of [record] takes every field of the
    measurement, the id [k] included (it is the id [record] was
    selected by); the instance returned is read from the row. *)
Definition setattr_commit (record : t) (k : Z) (m : BslMeasurementSchema.t)
    : Session t :=
  fun tbl =>
    let r := {| row_bsl := DECIMAL_scale_1 (BslMeasurementSchema.bsl m);
                row_type := BslMeasurementSchema.type m;
                row_date := BslMeasurementSchema.date m;
                row_time := BslMeasurementSchema.time m |} in
    (inr (load k r), <[k := r]> (base.delete (id record) tbl)).

Definition read (measurement_id : Z) : Session t :=
  record ← scalar_by_id measurement_id;
  match record with
  | None =>
      raise (DatabaseError (Some "MeasurementNotFound")
               ("No measurement with the given id: " +:+ pretty measurement_id))
  | Some r => mret r
  end.

Definition create (now : Clock) (measurement : BslMeasurementSchema.t)
    : Session t :=
  match BslMeasurementSchema.id measurement with
  | Some _ => raise (DatabaseError None "ID should be null for new measurements")
  | None =>
      k ← add_commit now (of_dump measurement);
      refresh k
  end.

Definition update (measurement : BslMeasurementSchema.t) : Session t :=
  match BslMeasurementSchema.id measurement with
  | None =>
      raise (DatabaseError None "ID should not be null for existing measurements")
  | Some k =>
      record ← scalar_by_id k;
      match record with
      | None => raise (DatabaseError None "Measurement not found")
      | Some r => setattr_commit r k measurement
      end
  end.

Definition delete (measurement_id : Z) : Session () :=
  fun tbl => (inr (), base.delete measurement_id tbl).

(** [db.scalars(select(cls)).all()] *)
Definition list : Session (Datatypes.list t) :=
  fun tbl => (inr (uncurry load <$> map_to_list tbl), tbl).

End BslMeasurementModel.

(** ** Routes *)

(** The response model built from an instance ([from_attributes]). *)
Definition from_attributes (r : BslMeasurementModel.t) : BslMeasurementSchema.t :=
  {| BslMeasurementSchema.id := Some (BslMeasurementModel.id r);
     BslMeasurementSchema.bsl := BslMeasurementModel.bsl r;
     BslMeasurementSchema.type := BslMeasurementModel.type r;
     BslMeasurementSchema.date := BslMeasurementModel.date r;
     BslMeasurementSchema.time := BslMeasurementModel.time r |}.

(** What a request ends in: the value returned by the route with its
    status code, an [HTTPException] raised by the route, an exception the
    route does not catch, or the rejection of the body before the route
    is entered. *)
Inductive Outcome (A : Type) : Type :=
| Returned (status_code : Z) (content : A)
| HTTPException (status_code : Z) (detail : string)
| Uncaught (e : Exception)
| RequestValidationError (errors : ValidationError).

Arguments Returned {A} status_code content.
Arguments HTTPException {A} status_code detail.
Arguments Uncaught {A} e.
Arguments RequestValidationError {A} errors.

Definition HTTP_200_OK : Z := 200.
Definition HTTP_201_CREATED : Z := 201.
Definition HTTP_404_NOT_FOUND : Z := 404.

Definition list_measurements (db : Table)
    : Outcome (list BslMeasurementSchema.t) * Table :=
  match BslMeasurementModel.list db with
  | (inr rs, db') => (Returned HTTP_200_OK (from_attributes <$> rs), db')
  | (inl e, db') => (Uncaught e, db')
  end.

Definition get_measurement (measurement_id : Z) (db : Table)
    : Outcome BslMeasurementSchema.t * Table :=
  match BslMeasurementModel.read measurement_id db with
  | (inr r, db') => (Returned HTTP_200_OK (from_attributes r), db')
  | (inl (DatabaseError _ _), db') =>
      (HTTPException HTTP_404_NOT_FOUND "No measurement with that ID", db')
  | (inl e, db') => (Uncaught e, db')
  end.

Definition create_measurement (now : Clock) (measurement : BslMeasurementSchema.t)
    (db : Table) : Outcome BslMeasurementSchema.t * Table :=
  match BslMeasurementModel.create now measurement db with
  | (inr r, db') => (Returned HTTP_201_CREATED (from_attributes r), db')
  | (inl e, db') => (Uncaught e, db')
  end.

Definition update_measurement (measurement : BslMeasurementSchema.t) (db : Table)
    : Outcome BslMeasurementSchema.t * Table :=
  match BslMeasurementModel.update measurement db with
  | (inr r, db') => (Returned HTTP_201_CREATED (from_attributes r), db')
  | (inl (DatabaseError _ _), db') =>
      (HTTPException HTTP_404_NOT_FOUND "No measurement with that ID", db')
  | (inl e, db') => (Uncaught e, db')
  end.

Definition delete_measurement (measurement_id : Z) (db : Table)
    : Outcome () * Table :=
  match BslMeasurementModel.delete measurement_id db with
  | (inr u, db') => (Returned HTTP_200_OK u, db')
  | (inl e, db') => (Uncaught e, db')
  end.

(** ** The application *)

(** The requests of the [/bsl] router; a path parameter is an integer. *)
Inductive Request : Type :=
| GET_all
| GET (measurement_id : Z)
| POST (body : Body)
| PUT (body : Body)
| DELETE (measurement_id : Z).

Inductive Content : Type :=
| Measurements (ms : list BslMeasurementSchema.t)
| Measurement (m : BslMeasurementSchema.t)
| Null.

Definition Outcome_map {A B : Type} (f : A -> B) (o : Outcome A) : Outcome B :=
  match o with
  | Returned s c => Returned s (f c)
  | HTTPException s d => HTTPException s d
  | Uncaught e => Uncaught e
  | RequestValidationError errs => RequestValidationError errs
  end.

(** A body is validated against the schema before the route is entered. *)
Definition with_body (body : Body)
    (route : BslMeasurementSchema.t -> Table -> Outcome BslMeasurementSchema.t * Table)
    (db : Table) : Outcome Content * Table :=
  match BslMeasurementSchema.model_validate body with
  | inl errs => (RequestValidationError errs, db)
  | inr m => prod_map (Outcome_map Measurement) id (route m db)
  end.

Definition handle (now : Clock) (req : Request) (db : Table)
    : Outcome Content * Table :=
  match req with
  | GET_all => prod_map (Outcome_map Measurements) id (list_measurements db)
  | GET k => prod_map (Outcome_map Measurement) id (get_measurement k db)
  | POST body => with_body body (create_measurement now) db
  | PUT body => with_body body update_measurement db
  | DELETE k => prod_map (Outcome_map (fun _ => Null)) id (delete_measurement k db)
  end.

(** The table after a sequence of requests, each served at its own
    clock reading. *)
Definition run (reqs : list (Clock * Request)) (db : Table) : Table :=
  fold_left (fun tbl '(now, req) => snd (handle now req tbl)) reqs db.

(** The status code the client receives. *)
Definition status_of {A : Type} (o : Outcome A) : Z :=
  match o with
  | Returned s _ => s
  | HTTPException s _ => s
  | Uncaught _ => 500
  | RequestValidationError _ => 422
  end.

Definition is_client_error (status : Z) : bool :=
  (400 <=? status) && (status <? 500).

(** ** The constraint on a value as the specification words it *)

(** [x] is the number [k / 10]. *)
Definition is_tenths (x : Decimal) (k : Z) : Prop :=
  Decimal_compare x (Finite k (-1)) = Some Eq.

(** A finite decimal in the range [0, 100] that is a multiple of 0.1. *)
Definition value_in_spec (x : Decimal) : Prop :=
  exists k, 0 <= k <= 1000 /\ is_tenths x k.

(** ** Invariants *)

(** A value as the [DECIMAL(scale=1)] column gives it back: one
    fractional digit, or an infinity. *)
Definition scaled (x : Decimal) : Prop :=
  (exists t, x = Finite t (-1)) \/ (exists n, x = Infinity n).

(** Every row of the table holds such a value. *)
Definition table_scaled (tbl : Table) : Prop :=
  map_Forall (fun _ r => scaled (row_bsl r)) tbl.

(** ** [MeasurementTypes.__repr__] *)

(** The representation of a member is its value. *)
Definition MeasurementTypes_repr (t : MeasurementTypes) : string :=
  MeasurementTypes_value t.

(** ** Requests that only read *)

Definition is_read (req : Request) : bool :=
  match req with
  | GET_all | GET _ => true
  | POST _ | PUT _ | DELETE _ => false
  end.

(** ** The migration *)

(** The tables of a database, by name. *)
Abbreviation Schema := (gmap string (list Column)).

Inductive OperationalError : Type :=
| table_already_exists (table : string)
| no_such_table (table : string).

(** [op.create_table(name, *columns)]: CREATE TABLE, an error on a name
    that is taken. *)
Definition create_table (table : string) (cols : list Column) (s : Schema)
    : OperationalError + Schema :=
  match s !! table with
  | Some _ => inl (table_already_exists table)
  | None => inr (<[table := cols]> s)
  end.

(** [op.drop_table(name)]: DROP TABLE, an error on a name that is not
    there. *)
Definition drop_table (table : string) (s : Schema) : OperationalError + Schema :=
  match s !! table with
  | Some _ => inr (base.delete table s)
  | None => inl (no_such_table table)
  end.

Definition upgrade (s : Schema) : OperationalError + Schema :=
  create_table "bsls" upgrade_columns s.

Definition downgrade (s : Schema) : OperationalError + Schema :=
  drop_table "bsls" s.

(** ** [config.py] *)

Module Settings.

Record t : Type := {
  service_name : string;
  service_version : string;
  db_path : string
}.

End Settings.

(** [get_settings] under [lru_cache]; [init] is what [Settings()] does
    at this call, the settings it builds from the environment and the
    [.env] file or the error it raises.  The cache holds the object of
    the first call that returned; a call that raises caches nothing. *)
Definition get_settings {E : Type} (init : E + Settings.t)
    (cache : option Settings.t) : (E + Settings.t) * option Settings.t :=
  match cache with
  | Some s => (inr s, cache)
  | None =>
      match init with
      | inr s => (inr s, Some s)
      | inl e => (inl e, None)
      end
  end.

(** The results of successive calls of [get_settings], each with what
    [Settings()] does at that call. *)
Fixpoint get_settings_calls {E : Type} (inits : list (E + Settings.t))
    (cache : option Settings.t) : list (E + Settings.t) :=
  match inits with
  | [] => []
  | init :: rest =>
      let '(r, cache') := get_settings init cache in
      r :: get_settings_calls rest cache'
  end.

(** ** Sample inputs *)

Definition clock0 : Clock :=
  {| today := Date 2024 9 3; time_of_day := Time 18 4 58 0 |}.

Definition date1 : datetime_date := Date 2024 1 2.
Definition time1 : datetime_time := Time 7 30 0 0.

(** The decimal 0.0 . *)
Definition d0_0 : Decimal := Finite 0 (-1).

(** Bodies with the values 200 and 5.55 and every other field given, and
    the instance the second one validates to. *)
Definition body_200 : Body :=
  {| body_id := None; body_bsl := Some (Finite 200 0);
     body_type := Some "fasting"%string;
     body_date := Some date1; body_time := Some time1 |}.

Definition body_5_55 : Body :=
  {| body_id := None; body_bsl := Some (Finite 555 (-2));
     body_type := Some "fasting"%string;
     body_date := Some date1; body_time := Some time1 |}.

Definition m_5_55 : BslMeasurementSchema.t :=
  {| BslMeasurementSchema.id := None; BslMeasurementSchema.bsl := Finite 555 (-2);
     BslMeasurementSchema.type := FASTING;
     BslMeasurementSchema.date := date1; BslMeasurementSchema.time := time1 |}.

(** A body with an accepted value that leaves out the date and the time. *)
Definition body_no_date_time : Body :=
  {| body_id := None; body_bsl := Some d0_0; body_type := Some "fasting"%string;
     body_date := None; body_time := None |}.

(** A complete body with the id 1. *)
Definition body_id_1 : Body :=
  {| body_id := Some 1; body_bsl := Some (Finite 0 0); body_type := None;
     body_date := Some (Date 2024 1 3); body_time := Some (Time 7 31 0 0) |}.

(** Schema instances without an id, with the id 1 and with the id 7. *)
Definition m_new : BslMeasurementSchema.t :=
  {| BslMeasurementSchema.id := None; BslMeasurementSchema.bsl := d0_0;
     BslMeasurementSchema.type := RANDOM;
     BslMeasurementSchema.date := date1; BslMeasurementSchema.time := time1 |}.

Definition m_id (k : Z) : BslMeasurementSchema.t :=
  {| BslMeasurementSchema.id := Some k; BslMeasurementSchema.bsl := Finite 0 0;
     BslMeasurementSchema.type := FASTING;
     BslMeasurementSchema.date := Date 2024 1 3;
     BslMeasurementSchema.time := Time 7 31 0 0 |}.

(** A table with one row, under the id 1. *)
Definition db1 : Table :=
  {[ 1 := {| row_bsl := d0_0; row_type := RANDOM;
             row_date := date1; row_time := time1 |} ]}.

(** An error is in the list built from the errors of the fields. *)
Ltac error_listed :=
  cbn [BslMeasurementSchema.errors_of app];
  repeat first [apply list_elem_of_here | apply list_elem_of_further].

(** ** Facts about decimals *)

Lemma pow10_pos (n : Z) : 0 <= n -> 0 < 10 ^ n.
Proof. intros Hn. apply Z.pow_pos_nonneg; lia. Qed.

Lemma pow10_succ (n : Z) : 0 <= n -> 10 ^ (n + 1) = 10 * 10 ^ n.
Proof. intros Hn. rewrite Z.pow_add_r by lia. rewrite Z.pow_1_r. lia. Qed.

(** At most one fractional digit is left exactly when the coefficient is
    a multiple of [10 ^ (n - 1)]. *)
Lemma fractional_digits_le_1 (n : nat) (c : Z) :
  (fractional_digits (S n) c <= 1)%nat <-> (10 ^ Z.of_nat n | c).
Proof.
  revert c. induction n as [|n IH]; intros c.
  - cbn [fractional_digits]. split; intros _.
    + exists c. simpl. lia.
    + destruct (c mod 10 =? 0); lia.
  - change (fractional_digits (S (S n)) c)
      with (if c mod 10 =? 0 then fractional_digits (S n) (c / 10) else S (S n)).
    replace (Z.of_nat (S n)) with (Z.of_nat n + 1) by lia.
    rewrite pow10_succ by lia.
    destruct (Z.eqb_spec (c mod 10) 0) as [Hmod|Hmod].
    + rewrite IH. pose proof (Z.div_mod c 10 ltac:(lia)) as Hc.
      split; intros [q Hq]; exists q; lia.
    + split; [lia|]. intros [q Hq]. exfalso. apply Hmod.
      rewrite Hq. replace (q * (10 * 10 ^ Z.of_nat n)) with ((q * 10 ^ Z.of_nat n) * 10) by lia.
      apply Z.mod_mul. lia.
Qed.

Lemma is_tenths_Finite (c e k : Z) :
  is_tenths (Finite c e) k <->
  (if decide (-1 <= e) then c * 10 ^ (e + 1) = k else c = k * 10 ^ (-1 - e)).
Proof.
  unfold is_tenths, Decimal_compare, align.
  case_decide as He.
  - rewrite Z.min_r by lia. replace (-1 - -1) with 0 by lia.
    replace (e - -1) with (e + 1) by lia. rewrite Z.pow_0_r, Z.mul_1_r.
    split.
    + intros [= H]. by apply Z.compare_eq_iff.
    + intros H. f_equal. by apply Z.compare_eq_iff.
  - rewrite Z.min_l by lia. replace (e - e) with 0 by lia.
    rewrite Z.pow_0_r, Z.mul_1_r.
    split.
    + intros [= H]. by apply Z.compare_eq_iff.
    + intros H. f_equal. by apply Z.compare_eq_iff.
Qed.

Lemma Decimal_le_Finite (c e c' e' : Z) :
  Decimal_le (Finite c e) (Finite c' e') = true <->
  c * 10 ^ (e - Z.min e e') <= c' * 10 ^ (e' - Z.min e e').
Proof.
  unfold Decimal_le, Decimal_compare, align.
  rewrite <- Z.leb_le. unfold Z.leb.
  by destruct (_ ?= _).
Qed.

Lemma Decimal_ge_Finite (c e c' e' : Z) :
  Decimal_ge (Finite c e) (Finite c' e') = true <->
  c' * 10 ^ (e' - Z.min e e') <= c * 10 ^ (e - Z.min e e').
Proof.
  unfold Decimal_ge, Decimal_compare, align.
  rewrite <- Z.geb_le. unfold Z.geb.
  by destruct (_ ?= _).
Qed.

(** What passing [condecimal] amounts to, for the bounds and the number
    of places of the schema and any [multiple_of]. *)
Lemma condecimal_None (mult x : Decimal) :
  condecimal (Finite 0 0) (Finite 100 0) mult (Some 1%nat) false x = None <->
  exists c e, x = Finite c e
    /\ (Decimal_places x <= 1)%nat
    /\ Decimal_is_multiple x mult = true
    /\ Decimal_le x (Finite 100 0) = true
    /\ Decimal_ge x (Finite 0 0) = true.
Proof.
  unfold condecimal. split.
  - destruct x as [c e| |]; [|done..]. cbn [Decimal_is_finite negb andb orb].
    destruct (Nat.ltb_spec 1 (Decimal_places (Finite c e))); [done|].
    destruct (Decimal_is_multiple _ _); [|done].
    destruct (Decimal_le _ _); [|done].
    destruct (Decimal_ge _ _); [|done].
    intros _. exists c, e. repeat split; auto.
  - intros (c & e & -> & Hp & -> & -> & ->). cbn [Decimal_is_finite negb andb orb].
    destruct (Nat.ltb_spec 1 (Decimal_places (Finite c e))); [lia|done].
Qed.

(** A decimal within the bounds and with at most one place is a number of
    tenths between 0 and 1000. *)
Lemma range_places_in_spec (c e : Z) :
  (Decimal_places (Finite c e) <= 1)%nat ->
  Decimal_le (Finite c e) (Finite 100 0) = true ->
  Decimal_ge (Finite c e) (Finite 0 0) = true ->
  value_in_spec (Finite c e).
Proof.
  rewrite Decimal_le_Finite, Decimal_ge_Finite. cbn [Decimal_places].
  intros Hp Hle Hge. unfold value_in_spec.
  destruct (decide (0 <= e)) as [He|He].
  - rewrite Z.min_r in Hle, Hge by lia.
    replace (0 - 0) with 0 in * by lia. replace (e - 0) with e in * by lia.
    rewrite Z.pow_0_r in *.
    exists (c * 10 ^ (e + 1)). rewrite is_tenths_Finite.
    rewrite decide_True by lia. rewrite pow10_succ by lia. split; [lia|done].
  - rewrite Z.min_l in Hle, Hge by lia.
    replace (e - e) with 0 in * by lia. rewrite Z.pow_0_r in *.
    destruct (decide (e = -1)) as [->|He1].
    + exists c. rewrite is_tenths_Finite. rewrite decide_True by lia.
      change (10 ^ (0 - -1)) with 10 in *. change (10 ^ (-1 + 1)) with 1.
      split; [lia|lia].
    + replace (Z.to_nat (- e)) with (S (Z.to_nat (-1 - e))) in Hp by lia.
      apply fractional_digits_le_1 in Hp. destruct Hp as [q Hq].
      rewrite Z2Nat.id in Hq by lia.
      pose proof (pow10_pos (-1 - e) ltac:(lia)) as Hpos.
      replace (0 - e) with ((-1 - e) + 1) in * by lia.
      rewrite pow10_succ in * by lia.
      exists q. rewrite is_tenths_Finite. rewrite decide_False by lia.
      split; [nia|done].
Qed.

Lemma fractional_digits_0 (n : nat) : fractional_digits n 0 = 0%nat.
Proof. induction n as [|n IH]; [done|]. cbn [fractional_digits]. by rewrite Zmod_0_l. Qed.

(** The converse of [range_places_in_spec]. *)
Lemma in_spec_range_places (c e : Z) :
  value_in_spec (Finite c e) ->
  (Decimal_places (Finite c e) <= 1)%nat
  /\ Decimal_le (Finite c e) (Finite 100 0) = true
  /\ Decimal_ge (Finite c e) (Finite 0 0) = true.
Proof.
  intros (k & Hk & Ht). rewrite is_tenths_Finite in Ht.
  rewrite Decimal_le_Finite, Decimal_ge_Finite. cbn [Decimal_places].
  case_decide as He.
  - destruct (decide (0 <= e)) as [He0|He0].
    + rewrite Z.min_r by lia. replace (Z.to_nat (- e)) with 0%nat by lia.
      replace (0 - 0) with 0 by lia. replace (e - 0) with e by lia.
      rewrite pow10_succ in Ht by lia. rewrite Z.pow_0_r.
      cbn [fractional_digits]. lia.
    + assert (e = -1) as -> by lia. change (10 ^ (-1 + 1)) with 1 in Ht.
      change (Z.to_nat (- -1)) with 1%nat. split.
      * apply fractional_digits_le_1. exists c. simpl. lia.
      * change (Z.min (-1) 0) with (-1). change (10 ^ (0 - -1)) with 10.
        change (10 ^ (-1 - -1)) with 1. lia.
  - rewrite Z.min_l by lia. replace (e - e) with 0 by lia. rewrite Z.pow_0_r.
    pose proof (pow10_pos (-1 - e) ltac:(lia)) as Hpos.
    replace (0 - e) with ((-1 - e) + 1) by lia. rewrite pow10_succ by lia.
    split; [|nia].
    replace (Z.to_nat (- e)) with (S (Z.to_nat (-1 - e))) by lia.
    apply fractional_digits_le_1. rewrite Z2Nat.id by lia. by exists k.
Qed.

(** A number of tenths that is a multiple of [Decimal(0.1)]: the equation
    between the number of tenths [k] and the quotient [q]. *)
Lemma tenths_multiple_of_float (c e k : Z) :
  is_tenths (Finite c e) k ->
  Decimal_is_multiple (Finite c e) Decimal_0_1_from_float = true ->
  exists q, k * 10 ^ 54
            = q * 1000000000000000055511151231257827021181583404541015625.
Proof.
  rewrite is_tenths_Finite. unfold Decimal_is_multiple, Decimal_0_1_from_float, align.
  set (C := 1000000000000000055511151231257827021181583404541015625).
  intros Ht Hm. apply andb_true_iff in Hm as [Hb Hm].
  apply negb_true_iff, Z.eqb_neq in Hb. apply Z.eqb_eq in Hm.
  apply Z.mod_divide in Hm; [|done]. destruct Hm as [q Hq]. exists q.
  destruct (decide (-55 <= e)) as [He|He].
  - rewrite Z.min_r in Hq by lia. replace (-55 - -55) with 0 in Hq by lia.
    rewrite Z.pow_0_r, Z.mul_1_r in Hq. rewrite <- Hq.
    case_decide as He1.
    + rewrite <- Ht. rewrite <- Z.mul_assoc, <- Z.pow_add_r by lia.
      do 2 f_equal. lia.
    + rewrite Ht. rewrite <- Z.mul_assoc, <- Z.pow_add_r by lia.
      do 2 f_equal. lia.
  - rewrite Z.min_l in Hq by lia. replace (e - e) with 0 in Hq by lia.
    rewrite Z.pow_0_r, Z.mul_1_r in Hq.
    rewrite decide_False in Ht by lia.
    pose proof (pow10_pos (-55 - e) ltac:(lia)) as Hpos.
    replace (-1 - e) with (54 + (-55 - e)) in Ht by lia.
    rewrite Z.pow_add_r in Ht by lia.
    apply (Z.mul_cancel_r _ _ (10 ^ (-55 - e))); [lia|]. lia.
Qed.

Lemma tenths_multiple_of_float_zero (k q : Z) :
  0 <= k <= 1000 ->
  k * 10 ^ 54 = q * 1000000000000000055511151231257827021181583404541015625 ->
  k = 0.
Proof.
  intros Hk H.
  let v := eval vm_compute in (10 ^ 54) in change (10 ^ 54) with v in H.
  lia.
Qed.

(** The constraints declared on the [bsl] field, were they read, would
    let through the decimals that are numerically zero, and no other. *)
Lemma bsl_annotation_None_iff (x : Decimal) :
  BslMeasurementSchema.bsl_annotation x = None <-> exists e, x = Finite 0 e.
Proof.
  unfold BslMeasurementSchema.bsl_annotation. rewrite condecimal_None. split.
  - intros (c & e & -> & Hp & Hm & Hle & Hge). exists e. f_equal.
    destruct (range_places_in_spec c e Hp Hle Hge) as (k & Hk & Ht).
    destruct (tenths_multiple_of_float c e k Ht Hm) as [q Hq].
    pose proof (tenths_multiple_of_float_zero k q Hk Hq) as ->.
    rewrite is_tenths_Finite in Ht. case_decide as He.
    + pose proof (pow10_pos (e + 1) ltac:(lia)). nia.
    + lia.
  - intros [e ->]. exists 0, e. split; [done|].
    assert (value_in_spec (Finite 0 e)) as Hspec.
    { exists 0. split; [lia|]. rewrite is_tenths_Finite. case_decide; lia. }
    apply in_spec_range_places in Hspec as (Hp & Hle & Hge).
    repeat split; try done.
    unfold Decimal_is_multiple, Decimal_0_1_from_float, align.
    rewrite Z.mul_0_l, Zmod_0_l, Z.eqb_refl, andb_true_r.
    apply negb_true_iff, Z.eqb_neq.
    pose proof (pow10_pos (-55 - Z.min e (-55)) ltac:(lia)). lia.
Qed.

(** With [Decimal("0.1")] in the place of [Decimal(0.1)] the same
    annotation lets through exactly the tenths from 0 to 100. *)
Lemma condecimal_from_str_iff (x : Decimal) :
  condecimal (Finite 0 0) (Finite 100 0) Decimal_0_1_from_str (Some 1%nat) false x
    = None <-> value_in_spec x.
Proof.
  rewrite condecimal_None. split.
  - intros (c & e & -> & Hp & _ & Hle & Hge). by apply range_places_in_spec.
  - intros Hspec. destruct x as [c e|n|].
    + exists c, e. split; [done|].
      destruct (in_spec_range_places c e Hspec) as (Hp & Hle & Hge).
      repeat split; try done.
      destruct Hspec as (k & Hk & Ht). rewrite is_tenths_Finite in Ht.
      unfold Decimal_is_multiple, Decimal_0_1_from_str, align.
      case_decide as He.
      * rewrite Z.min_r by lia. change (10 ^ (-1 - -1)) with 1.
        rewrite Z.mul_1_l, Z.mod_1_r. done.
      * rewrite Z.min_l by lia. replace (e - e) with 0 by lia.
        rewrite Z.pow_0_r, !Z.mul_1_r, Z.mul_1_l.
        pose proof (pow10_pos (-1 - e) ltac:(lia)) as Hpos.
        rewrite Ht, Z.mod_mul by lia.
        apply andb_true_iff. split; [|done].
        apply negb_true_iff, Z.eqb_neq. lia.
    + destruct Hspec as (k & _ & Ht). unfold is_tenths in Ht. by destruct n.
    + destruct Hspec as (k & _ & Ht). done.
Qed.

(** The float 0.1 is the double nearest to one tenth (a 53-bit
    significand, within half a unit in the last place, [2 ^ -57]), and it
    is not one tenth: [Decimal(0.1)] is above [Decimal("0.1")]. *)
Lemma float_0_1_inexact :
  2 ^ 52 <= 2 * float_0_1_significand < 2 ^ 53
  /\ 4 * Z.abs (10 * float_0_1_significand - 2 ^ Z.of_nat float_0_1_scale) <= 10
  /\ Decimal_compare Decimal_0_1_from_float Decimal_0_1_from_str = Some Gt.
Proof. by vm_compute. Qed.

(** What the declared constraints answer on some values: 0 and 0.0
    pass; 0.1, 5.5 and 100 are no multiples of [Decimal(0.1)]; 5.55 has
    two places; 101 and -1 are no multiples either, and with
    [Decimal("0.1")] they are out of range; infinity and NaN are not
    finite.  The constraint in force passes all of them but the last
    two. *)
Example bsl_annotation_samples :
  BslMeasurementSchema.bsl_annotation <$>
    [Finite 0 0; Finite 0 (-1); Finite 1 (-1); Finite 55 (-1); Finite 100 0;
     Finite 555 (-2); Finite 101 0; Finite (-1) 0; Infinity false; NaN]
  = [None; None; Some multiple_of; Some multiple_of; Some multiple_of;
     Some decimal_max_places; Some multiple_of; Some multiple_of;
     Some finite_number; Some finite_number]
  /\ condecimal (Finite 0 0) (Finite 100 0) Decimal_0_1_from_str (Some 1%nat) false <$>
      [Finite 55 (-1); Finite 100 0; Finite 101 0; Finite (-1) 0]
    = [None; None; Some less_than_equal; Some greater_than_equal]
  /\ BslMeasurementSchema.bsl_constraint <$>
      [Finite 0 0; Finite 0 (-1); Finite 1 (-1); Finite 55 (-1); Finite 100 0;
       Finite 555 (-2); Finite 101 0; Finite (-1) 0; Infinity false; NaN]
    = [None; None; None; None; None; None; None; None;
       Some finite_number; Some finite_number].
Proof. by vm_compute. Qed.

(** ** Validation *)

(** C1 (the code departs from the claim): the values 200 and 5.55 are
    not tenths between 0 and 100, one is out of range and the other has
    two decimal digits, and the constraints declared on the field would
    reject both; the schema validates both, and the create request
    answers 201 and stores them, as 200.0 and 5.5 . *)
Theorem bsl_out_of_range_accepted :
  ~ value_in_spec (Finite 200 0)
  /\ ~ value_in_spec (Finite 555 (-2))
  /\ BslMeasurementSchema.bsl_annotation (Finite 200 0) = Some multiple_of
  /\ BslMeasurementSchema.bsl_annotation (Finite 555 (-2)) = Some decimal_max_places
  /\ BslMeasurementSchema.model_validate body_200
     = inr {| BslMeasurementSchema.id := None;
              BslMeasurementSchema.bsl := Finite 200 0;
              BslMeasurementSchema.type := FASTING;
              BslMeasurementSchema.date := date1;
              BslMeasurementSchema.time := time1 |}
  /\ BslMeasurementSchema.model_validate body_5_55 = inr m_5_55
  /\ handle clock0 (POST body_200) ∅
     = (Returned HTTP_201_CREATED
          (Measurement
             {| BslMeasurementSchema.id := Some 1;
                BslMeasurementSchema.bsl := Finite 2000 (-1);
                BslMeasurementSchema.type := FASTING;
                BslMeasurementSchema.date := date1;
                BslMeasurementSchema.time := time1 |}),
        {[ 1 := {| row_bsl := Finite 2000 (-1); row_type := FASTING;
                   row_date := date1; row_time := time1 |} ]})
  /\ handle clock0 (POST body_5_55) ∅
     = (Returned HTTP_201_CREATED
          (Measurement
             {| BslMeasurementSchema.id := Some 1;
                BslMeasurementSchema.bsl := Finite 55 (-1);
                BslMeasurementSchema.type := FASTING;
                BslMeasurementSchema.date := date1;
                BslMeasurementSchema.time := time1 |}),
        {[ 1 := {| row_bsl := Finite 55 (-1); row_type := FASTING;
                   row_date := date1; row_time := time1 |} ]}).
Proof.
  split.
  { intros (k & Hk & Ht). apply is_tenths_Finite in Ht.
    rewrite decide_True in Ht by lia.
    change (200 * 10 ^ (0 + 1)) with 2000 in Ht. lia. }
  split.
  { intros (k & Hk & Ht). apply is_tenths_Finite in Ht.
    rewrite decide_False in Ht by lia.
    change (10 ^ (-1 - -2)) with 10 in Ht. lia. }
  repeat split; by vm_compute.
Qed.

Lemma MeasurementTypes_of_value_Some (s : string) (t : MeasurementTypes) :
  MeasurementTypes_of_value s = Some t <-> s = MeasurementTypes_value t.
Proof.
  unfold MeasurementTypes_of_value.
  destruct (String.eqb_spec s (MeasurementTypes_value FASTING)) as [->|Hf].
  { destruct t; split; intros; simplify_eq; done. }
  destruct (String.eqb_spec s (MeasurementTypes_value RANDOM)) as [->|Hr].
  { destruct t; split; intros; simplify_eq; done. }
  split; [done|]. by destruct t; intros ->.
Qed.

(** C10: a type string is accepted as a member exactly when it is the
    value of that member, "fasting" or "random" as written; every other
    string is an enum error, "FASTING" among them, and a request with
    such a type is rejected with the table left as it was. *)
Theorem type_parsing_case_sensitive (s : string) (t : MeasurementTypes) :
  (BslMeasurementSchema.validate_type (Some s) = inr t
     <-> s = MeasurementTypes_value t)
  /\ (BslMeasurementSchema.validate_type (Some s) = inl enum
     <-> s <> "fasting"%string /\ s <> "random"%string)
  /\ BslMeasurementSchema.validate_type (Some "FASTING"%string) = inl enum
  /\ (s <> "fasting"%string -> s <> "random"%string ->
      forall now b db, body_type b = Some s ->
        exists errs, ("type"%string, enum) ∈ errs
          /\ handle now (POST b) db = (RequestValidationError errs, db)
          /\ handle now (PUT b) db = (RequestValidationError errs, db)).
Proof.
  assert (BslMeasurementSchema.validate_type (Some s) = inl enum
          <-> s <> "fasting"%string /\ s <> "random"%string) as Henum.
  { unfold BslMeasurementSchema.validate_type.
    destruct (MeasurementTypes_of_value s) as [m|] eqn:Hs.
    - apply MeasurementTypes_of_value_Some in Hs. split; [done|].
      intros [Hf Hr]. by destruct m.
    - split; [|done]. intros _. split; intros ->; by vm_compute in Hs. }
  split; [|split; [done|split; [by vm_compute|]]].
  - unfold BslMeasurementSchema.validate_type.
    rewrite <- MeasurementTypes_of_value_Some.
    destruct (MeasurementTypes_of_value s); split; intros; by simplify_eq.
  - intros Hf Hr now b db Hb.
    assert (BslMeasurementSchema.validate_type (Some s) = inl enum) as Hv
      by by apply Henum.
    unfold handle, with_body, BslMeasurementSchema.model_validate.
    rewrite Hb, Hv.
    destruct (BslMeasurementSchema.validate_bsl _),
      (BslMeasurementSchema.validate_required (body_date b)),
      (BslMeasurementSchema.validate_required (body_time b));
      (eexists; split; [|split; reflexivity]); error_listed.
Qed.

Lemma type_parsing_case_sensitive_witness :
  exists errs, ("type"%string, enum) ∈ errs
    /\ handle clock0
         (POST {| body_id := None; body_bsl := Some d0_0;
                  body_type := Some "FASTING"%string;
                  body_date := Some date1; body_time := Some time1 |}) ∅
       = (RequestValidationError errs, ∅)
    /\ handle clock0
         (PUT {| body_id := None; body_bsl := Some d0_0;
                 body_type := Some "FASTING"%string;
                 body_date := Some date1; body_time := Some time1 |}) ∅
       = (RequestValidationError errs, ∅).
Proof.
  apply (type_parsing_case_sensitive "FASTING" FASTING); done.
Defined.

(** C2 (as amended): a creation request that leaves out the date or the
    time is rejected by validation, with a missing-field error for each
    field left out, and nothing is stored; the current date and the
    current time are the server defaults of the two columns only. *)
Theorem post_without_date_or_time_rejected (now : Clock) (b : Body) (db : Table) :
  body_date b = None \/ body_time b = None ->
  (exists errs,
     handle now (POST b) db = (RequestValidationError errs, db)
     /\ (body_date b = None -> ("date"%string, missing) ∈ errs)
     /\ (body_time b = None -> ("time"%string, missing) ∈ errs))
  /\ server_default <$> find_column "date" model_columns = Some (Some current_date)
  /\ server_default <$> find_column "time" model_columns = Some (Some current_time).
Proof.
  intros Hmiss. split; [|done].
  unfold handle, with_body, BslMeasurementSchema.model_validate.
  destruct (BslMeasurementSchema.validate_bsl _),
    (BslMeasurementSchema.validate_type _),
    (body_date b) as [given_date|], (body_time b) as [given_time|];
    cbn [BslMeasurementSchema.validate_required BslMeasurementSchema.errors_of app];
    try (by destruct Hmiss);
    (eexists; split; [reflexivity|]; split; intros; try done; error_listed).
Qed.

Lemma post_without_date_or_time_rejected_witness :
  (exists errs,
     handle clock0 (POST body_no_date_time) ∅ = (RequestValidationError errs, ∅)
     /\ (body_date body_no_date_time = None -> ("date"%string, missing) ∈ errs)
     /\ (body_time body_no_date_time = None -> ("time"%string, missing) ∈ errs))
  /\ server_default <$> find_column "date" model_columns = Some (Some current_date)
  /\ server_default <$> find_column "time" model_columns = Some (Some current_time).
Proof.
  apply (post_without_date_or_time_rejected clock0 body_no_date_time ∅).
  left. reflexivity.
Defined.

(** C2 fails as stated: a request with an accepted value and type and no
    date or time is not stored with the current date and time, it is
    rejected for the two missing fields and the table stays empty. *)
Lemma post_no_date_time_counterexample :
  handle clock0 (POST body_no_date_time) ∅
  = (RequestValidationError [("date"%string, missing); ("time"%string, missing)], ∅).
Proof. by vm_compute. Qed.

(** ** The migration against the model *)

(** C3 (the code departs from the claim): the table created by [upgrade]
    has the columns id, bsl, date and time, with the types and the
    current-date and current-time defaults of the model, and it has no
    column [type], which the model maps as a mandatory enum column. *)
Theorem upgrade_lacks_type_column :
  column_names model_columns = ["id"; "bsl"; "type"; "date"; "time"]%string
  /\ column_names upgrade_columns = ["id"; "bsl"; "date"; "time"]%string
  /\ find_column "type" upgrade_columns = None
  /\ find_column "type" model_columns
     = Some {| name := "type"; type_ := SaEnum ["FASTING"; "RANDOM"]%string;
               primary_key := false; autoincrement := None; nullable := false;
               server_default := None |}
  /\ upgrade_columns <> model_columns.
Proof. repeat split; done. Qed.

(** What the migration and the model agree on: the type, the key flag and
    the server default of the four columns the migration creates. *)
Lemma upgrade_columns_agree (c : Column) :
  c ∈ upgrade_columns ->
  exists c', find_column (name c) model_columns = Some c'
    /\ type_ c' = type_ c /\ primary_key c' = primary_key c
    /\ server_default c' = server_default c.
Proof.
  unfold upgrade_columns. rewrite !elem_of_cons, elem_of_nil.
  intros [->|[->|[->|[->|[]]]]]; eexists; (split; [reflexivity|done]).
Qed.

(** ** The table *)

Lemma next_id_above (tbl : Table) (k : Z) : is_Some (tbl !! k) -> k < next_id tbl.
Proof.
  unfold next_id.
  cut (forall k, is_Some (tbl !! k)
                 -> k <= map_fold (fun k _ acc => Z.max k acc) 0 tbl).
  { intros H Hk. specialize (H k Hk). lia. }
  clear k.
  apply (map_fold_weak_ind
           (fun acc (m : Table) => forall k, is_Some (m !! k) -> k <= acc)).
  - intros k [r Hr]. by rewrite lookup_empty in Hr.
  - intros i x m acc Hi IH k Hk. destruct (decide (i = k)) as [->|Hne]; [lia|].
    rewrite lookup_insert_ne in Hk by done. specialize (IH k Hk). lia.
Qed.

(** The id given to a new row is not in the table. *)
Lemma next_id_fresh (tbl : Table) : tbl !! next_id tbl = None.
Proof.
  destruct (tbl !! next_id tbl) as [r|] eqn:Hr; [|done].
  pose proof (next_id_above tbl (next_id tbl) (mk_is_Some _ _ Hr)). lia.
Qed.

(** Reading does not write. *)
Lemma list_measurements_store (db : Table) : snd (list_measurements db) = db.
Proof. done. Qed.

Lemma get_measurement_store (k : Z) (db : Table) : snd (get_measurement k db) = db.
Proof.
  unfold get_measurement, BslMeasurementModel.read, BslMeasurementModel.scalar_by_id.
  unfold mbind, Session_bind, bind. by destruct (db !! k).
Qed.

(** ** Create *)

(** C4 (as amended): a create with a non-null id raises the id-must-be-null
    [DatabaseError] whatever the table holds and leaves the table as it
    was; the route does not catch it. *)
Theorem create_with_id_rejected (now : Clock) (m : BslMeasurementSchema.t)
    (db : Table) (k : Z) :
  BslMeasurementSchema.id m = Some k ->
  BslMeasurementModel.create now m db
  = (inl (DatabaseError None "ID should be null for new measurements"), db)
  /\ create_measurement now m db
     = (Uncaught (DatabaseError None "ID should be null for new measurements"), db).
Proof.
  intros Hid. unfold create_measurement, BslMeasurementModel.create.
  by rewrite Hid.
Qed.

Lemma create_with_id_rejected_witness :
  BslMeasurementModel.create clock0 (m_id 1) db1
  = (inl (DatabaseError None "ID should be null for new measurements"), db1)
  /\ create_measurement clock0 (m_id 1) db1
     = (Uncaught (DatabaseError None "ID should be null for new measurements"), db1).
Proof. apply (create_with_id_rejected clock0 (m_id 1) db1 1). reflexivity. Defined.

(** C4 fails as stated: the create of a measurement with the id 1 is not
    answered with a client error, the exception leaves the route uncaught
    (status 500). *)
Lemma create_with_id_counterexample :
  fst (create_measurement clock0 (m_id 1) ∅)
  = Uncaught (DatabaseError None "ID should be null for new measurements")
  /\ status_of (fst (create_measurement clock0 (m_id 1) ∅)) = 500
  /\ is_client_error (status_of (fst (create_measurement clock0 (m_id 1) ∅))) = false.
Proof. by vm_compute. Qed.


(** What the column gives back has one fractional digit, or is an
    infinity when the value is beyond the floats. *)
Lemma DECIMAL_scale_1_scaled (x : Decimal) :
  Decimal_is_finite x = true -> scaled (DECIMAL_scale_1 x).
Proof.
  destruct x as [c e| |]; [|done..]. intros _.
  unfold DECIMAL_scale_1, Decimal_to_float.
  destruct (c =? 0); [left; by eexists|].
  destruct (binary64_of_ratio _ _) as [m e'|n|] eqn:Hf.
  - left. by eexists.
  - right. by eexists.
  - exfalso. unfold binary64_of_ratio in Hf.
    repeat match type of Hf with
           | context [if ?b then _ else _] => destruct b
           | context [let '(_, _) := ?p in _] => destruct p
           end; discriminate.
Qed.

(** C7 (the code departs from the claim): the body with the value 5.55
    validates, and the create of the measurement returns, and a read of
    the returned id returns again, a record whose value is 5.5, below
    the value of the measurement created. *)
Theorem create_5_55_reads_back_5_5 :
  BslMeasurementSchema.model_validate body_5_55 = inr m_5_55
  /\ fst (BslMeasurementModel.create clock0 m_5_55 ∅)
     = inr {| BslMeasurementModel.id := 1; BslMeasurementModel.bsl := Finite 55 (-1);
              BslMeasurementModel.type := FASTING;
              BslMeasurementModel.date := date1; BslMeasurementModel.time := time1 |}
  /\ fst (BslMeasurementModel.read 1
            (snd (BslMeasurementModel.create clock0 m_5_55 ∅)))
     = inr {| BslMeasurementModel.id := 1; BslMeasurementModel.bsl := Finite 55 (-1);
              BslMeasurementModel.type := FASTING;
              BslMeasurementModel.date := date1; BslMeasurementModel.time := time1 |}
  /\ Decimal_compare (Finite 55 (-1)) (BslMeasurementSchema.bsl m_5_55) = Some Lt.
Proof. repeat split; by vm_compute. Qed.

(** A row inserted without a date or a time takes the reading of the
    database clock, which is what the server defaults of the two columns
    provide; [create] never inserts such a row. *)
Lemma insert_row_defaults (now : Clock) (v : BslMeasurementModel.Values) :
  (BslMeasurementModel.v_date v = None ->
   row_date (BslMeasurementModel.insert_row now v) = today now)
  /\ (BslMeasurementModel.v_time v = None ->
      row_time (BslMeasurementModel.insert_row now v) = time_of_day now)
  /\ (forall m, BslMeasurementModel.v_date (BslMeasurementModel.of_dump m)
                = Some (BslMeasurementSchema.date m)
                /\ BslMeasurementModel.v_time (BslMeasurementModel.of_dump m)
                   = Some (BslMeasurementSchema.time m)).
Proof.
  unfold BslMeasurementModel.insert_row. cbn.
  split; [by intros ->|]. split; [by intros ->|done].
Qed.

(** ** Update *)

(** C5: an update with a null id raises the id-must-not-be-null
    [DatabaseError], an update with an id that is not in the table raises
    the not-found [DatabaseError]; the route answers both with 404, and
    in both cases the table is left as it was. *)
Theorem update_rejected (m : BslMeasurementSchema.t) (db : Table) :
  (BslMeasurementSchema.id m = None ->
   BslMeasurementModel.update m db
   = (inl (DatabaseError None "ID should not be null for existing measurements"), db)
   /\ update_measurement m db
      = (HTTPException HTTP_404_NOT_FOUND "No measurement with that ID", db))
  /\ (forall k, BslMeasurementSchema.id m = Some k -> db !! k = None ->
      BslMeasurementModel.update m db
      = (inl (DatabaseError None "Measurement not found"), db)
      /\ update_measurement m db
         = (HTTPException HTTP_404_NOT_FOUND "No measurement with that ID", db)).
Proof.
  unfold update_measurement, BslMeasurementModel.update. split.
  - intros Hid. by rewrite Hid.
  - intros k Hid Hk. rewrite Hid.
    unfold BslMeasurementModel.scalar_by_id, mbind, Session_bind, bind.
    by rewrite Hk.
Qed.

Lemma update_rejected_witness :
  (BslMeasurementModel.update m_new db1
   = (inl (DatabaseError None "ID should not be null for existing measurements"), db1)
   /\ update_measurement m_new db1
      = (HTTPException HTTP_404_NOT_FOUND "No measurement with that ID", db1))
  /\ (BslMeasurementModel.update (m_id 7) db1
      = (inl (DatabaseError None "Measurement not found"), db1)
      /\ update_measurement (m_id 7) db1
         = (HTTPException HTTP_404_NOT_FOUND "No measurement with that ID", db1)).
Proof.
  split.
  - apply (update_rejected m_new db1). reflexivity.
  - apply (update_rejected (m_id 7) db1) with (k := 7); reflexivity.
Defined.

(** The row an update writes, and the table it leaves. *)
Lemma update_found (m : BslMeasurementSchema.t) (db : Table) (k : Z) :
  BslMeasurementSchema.id m = Some k -> is_Some (db !! k) ->
  let r := {| row_bsl := DECIMAL_scale_1 (BslMeasurementSchema.bsl m);
              row_type := BslMeasurementSchema.type m;
              row_date := BslMeasurementSchema.date m;
              row_time := BslMeasurementSchema.time m |} in
  BslMeasurementModel.update m db
  = (inr (BslMeasurementModel.load k r), <[k := r]> db).
Proof.
  intros Hid [old Hold] r. unfold BslMeasurementModel.update. rewrite Hid.
  unfold BslMeasurementModel.scalar_by_id, mbind, Session_bind, bind.
  rewrite Hold. cbn [fmap option_fmap option_map].
  unfold BslMeasurementModel.setattr_commit.
  cbn [BslMeasurementModel.load BslMeasurementModel.id].
  fold r. by rewrite insert_delete_eq.
Qed.



(** ** Delete *)

(** C6: a delete returns normally with no content, the first time and
    the second time, and the second delete changes nothing; the delete of
    an id that is not in the table leaves the table as it was; a read of
    the deleted id raises the not-found [DatabaseError], which the route
    answers with 404. *)
Theorem delete_idempotent (k : Z) (db : Table) :
  let db' := snd (delete_measurement k db) in
  delete_measurement k db = (Returned HTTP_200_OK (), db')
  /\ delete_measurement k db' = (Returned HTTP_200_OK (), db')
  /\ (db !! k = None -> db' = db)
  /\ BslMeasurementModel.read k db'
     = (inl (DatabaseError (Some "MeasurementNotFound")
               ("No measurement with the given id: " +:+ pretty k)), db')
  /\ get_measurement k db'
     = (HTTPException HTTP_404_NOT_FOUND "No measurement with that ID", db').
Proof.
  unfold delete_measurement, BslMeasurementModel.delete. cbn [snd].
  split; [done|]. split; [by rewrite delete_delete_eq|].
  split; [apply delete_id|].
  unfold get_measurement, BslMeasurementModel.read,
    BslMeasurementModel.scalar_by_id, mbind, Session_bind, bind.
  by rewrite lookup_delete_eq.
Qed.

Lemma delete_idempotent_witness :
  snd (delete_measurement 999999 db1) = db1.
Proof. apply (delete_idempotent 999999 db1). reflexivity. Defined.

(** ** Invariants of the table *)

(** C9 (the code departs from the claim): after the create request with
    the value 200, served from the empty table, the table lists a
    measurement with an id, the type FASTING and the value 200.0, which
    is not within the range from 0 to 100. *)
Theorem stored_200_out_of_range :
  fst (list_measurements (run [(clock0, POST body_200)] ∅))
  = Returned HTTP_200_OK
      [{| BslMeasurementSchema.id := Some 1;
          BslMeasurementSchema.bsl := Finite 2000 (-1);
          BslMeasurementSchema.type := FASTING;
          BslMeasurementSchema.date := date1;
          BslMeasurementSchema.time := time1 |}]
  /\ fst (get_measurement 1 (run [(clock0, POST body_200)] ∅))
     = Returned HTTP_200_OK
         {| BslMeasurementSchema.id := Some 1;
            BslMeasurementSchema.bsl := Finite 2000 (-1);
            BslMeasurementSchema.type := FASTING;
            BslMeasurementSchema.date := date1;
            BslMeasurementSchema.time := time1 |}
  /\ ~ value_in_spec (Finite 2000 (-1))
  /\ Decimal_le (Finite 2000 (-1)) (Finite 100 0) = false.
Proof.
  split; [by vm_compute|]. split; [by vm_compute|]. split; [|by vm_compute].
  intros (k & Hk & Ht). apply is_tenths_Finite in Ht.
  rewrite decide_True in Ht by lia.
  change (2000 * 10 ^ (-1 + 1)) with 2000 in Ht. lia.
Qed.

(** * Further properties of the code *)

(** ** Equations of the model operations *)

Lemma read_eq (k : Z) (db : Table) :
  BslMeasurementModel.read k db
  = (match db !! k with
     | Some r => inr (BslMeasurementModel.load k r)
     | None => inl (DatabaseError (Some "MeasurementNotFound")
                      ("No measurement with the given id: " +:+ pretty k))
     end, db).
Proof.
  unfold BslMeasurementModel.read, BslMeasurementModel.scalar_by_id,
    mbind, Session_bind, bind.
  by destruct (db !! k).
Qed.

Lemma get_measurement_eq (k : Z) (db : Table) :
  get_measurement k db
  = (match db !! k with
     | Some r => Returned HTTP_200_OK (from_attributes (BslMeasurementModel.load k r))
     | None => HTTPException HTTP_404_NOT_FOUND "No measurement with that ID"
     end, db).
Proof. unfold get_measurement. rewrite read_eq. by destruct (db !! k). Qed.

Lemma create_eq (now : Clock) (m : BslMeasurementSchema.t) (db : Table) :
  BslMeasurementSchema.id m = None ->
  let row := BslMeasurementModel.insert_row now (BslMeasurementModel.of_dump m) in
  BslMeasurementModel.create now m db
  = (inr (BslMeasurementModel.load (next_id db) row), <[next_id db := row]> db).
Proof.
  intros Hid row. unfold BslMeasurementModel.create. rewrite Hid.
  unfold BslMeasurementModel.refresh, BslMeasurementModel.add_commit,
    BslMeasurementModel.scalar_by_id, mbind, Session_bind, bind.
  fold row. by rewrite lookup_insert_eq.
Qed.

(** The table an update leaves, in every case. *)
Lemma update_store (m : BslMeasurementSchema.t) (db : Table) :
  snd (BslMeasurementModel.update m db)
  = match BslMeasurementSchema.id m with
    | Some k =>
        match db !! k with
        | Some _ =>
            <[k := {| row_bsl := DECIMAL_scale_1 (BslMeasurementSchema.bsl m);
                      row_type := BslMeasurementSchema.type m;
                      row_date := BslMeasurementSchema.date m;
                      row_time := BslMeasurementSchema.time m |}]> db
        | None => db
        end
    | None => db
    end.
Proof.
  destruct (BslMeasurementSchema.id m) as [k|] eqn:Hid.
  - destruct (db !! k) as [old|] eqn:Hk.
    + by rewrite (update_found m db k Hid (mk_is_Some _ _ Hk)).
    + unfold BslMeasurementModel.update. rewrite Hid.
      unfold BslMeasurementModel.scalar_by_id, mbind, Session_bind, bind.
      by rewrite Hk.
  - unfold BslMeasurementModel.update. by rewrite Hid.
Qed.

Lemma update_measurement_store (m : BslMeasurementSchema.t) (db : Table) :
  snd (update_measurement m db) = snd (BslMeasurementModel.update m db).
Proof.
  unfold update_measurement.
  by destruct (BslMeasurementModel.update m db) as [[[]|] ?].
Qed.

(** ** Read and list *)



(** ** Create, further *)



(** The delete of the id a create returned undoes the create. *)
Theorem create_then_delete (now : Clock) (m : BslMeasurementSchema.t) (db : Table) :
  BslMeasurementSchema.id m = None ->
  exists r db',
    BslMeasurementModel.create now m db = (inr r, db')
    /\ delete_measurement (BslMeasurementModel.id r) db' = (Returned HTTP_200_OK (), db).
Proof.
  intros Hid. pose proof (create_eq now m db Hid) as Hc. cbv zeta in Hc.
  eexists _, _. split; [exact Hc|].
  unfold delete_measurement, BslMeasurementModel.delete.
  cbn [BslMeasurementModel.load BslMeasurementModel.id].
  rewrite delete_insert_eq, delete_id; [done|apply next_id_fresh].
Qed.

Lemma create_then_delete_witness :
  exists r db',
    BslMeasurementModel.create clock0 m_new db1 = (inr r, db')
    /\ delete_measurement (BslMeasurementModel.id r) db' = (Returned HTTP_200_OK (), db1).
Proof. apply (create_then_delete clock0 m_new db1). reflexivity. Defined.

(** Two creates in a row return two different ids, and both measurements
    can be read afterwards: the second create does not touch the first. *)
Theorem create_twice (now1 now2 : Clock) (m1 m2 : BslMeasurementSchema.t)
    (db : Table) :
  BslMeasurementSchema.id m1 = None -> BslMeasurementSchema.id m2 = None ->
  exists r1 r2 db1 db2,
    BslMeasurementModel.create now1 m1 db = (inr r1, db1)
    /\ BslMeasurementModel.create now2 m2 db1 = (inr r2, db2)
    /\ BslMeasurementModel.id r1 <> BslMeasurementModel.id r2
    /\ BslMeasurementModel.read (BslMeasurementModel.id r1) db2 = (inr r1, db2)
    /\ BslMeasurementModel.read (BslMeasurementModel.id r2) db2 = (inr r2, db2).
Proof.
  intros Hid1 Hid2.
  pose proof (create_eq now1 m1 db Hid1) as Hc1. cbv zeta in Hc1.
  set (row1 := BslMeasurementModel.insert_row now1 (BslMeasurementModel.of_dump m1)) in *.
  set (db1 := <[next_id db := row1]> db) in *.
  pose proof (create_eq now2 m2 db1 Hid2) as Hc2. cbv zeta in Hc2.
  set (row2 := BslMeasurementModel.insert_row now2 (BslMeasurementModel.of_dump m2)) in *.
  eexists _, _, _, _. split; [exact Hc1|]. split; [exact Hc2|].
  cbn [BslMeasurementModel.load BslMeasurementModel.id].
  assert (next_id db < next_id db1) as Hlt.
  { apply next_id_above. unfold db1. rewrite lookup_insert_eq. eauto. }
  split; [lia|]. rewrite !read_eq. split.
  - rewrite lookup_insert_ne by lia. unfold db1. by rewrite lookup_insert_eq.
  - by rewrite lookup_insert_eq.
Qed.

Lemma create_twice_witness :
  exists r1 r2 db' db'',
    BslMeasurementModel.create clock0 m_new ∅ = (inr r1, db')
    /\ BslMeasurementModel.create clock0 m_new db' = (inr r2, db'')
    /\ BslMeasurementModel.id r1 <> BslMeasurementModel.id r2
    /\ BslMeasurementModel.read (BslMeasurementModel.id r1) db'' = (inr r1, db'')
    /\ BslMeasurementModel.read (BslMeasurementModel.id r2) db'' = (inr r2, db'').
Proof. apply (create_twice clock0 clock0 m_new m_new ∅); reflexivity. Defined.

(** ** Update, further *)



(** An update never adds or removes a row, and it leaves the rows of all
    other ids as they were, whether it succeeds or not. *)
Theorem update_keeps_other_rows (m : BslMeasurementSchema.t) (db : Table) :
  dom (snd (update_measurement m db)) = dom db
  /\ size (snd (update_measurement m db)) = size db
  /\ forall k, BslMeasurementSchema.id m <> Some k ->
       snd (update_measurement m db) !! k = db !! k.
Proof.
  rewrite update_measurement_store, update_store.
  destruct (BslMeasurementSchema.id m) as [i|]; [|done].
  destruct (db !! i) as [old|] eqn:Hi; [|done].
  split; [|split].
  - apply dom_insert_lookup_L. eauto.
  - apply map_size_insert_Some. eauto.
  - intros k Hk. rewrite lookup_insert_ne; [done|congruence].
Qed.

Lemma update_keeps_other_rows_witness :
  snd (update_measurement (m_id 7) db1) !! 1 = db1 !! 1.
Proof. apply (update_keeps_other_rows (m_id 7) db1). discriminate. Defined.

(** Of two updates of the same id in a row the second one decides the
    table: the fields of the first leave no trace. *)
Theorem update_last_write_wins (m1 m2 : BslMeasurementSchema.t) (db : Table) :
  BslMeasurementSchema.id m1 = BslMeasurementSchema.id m2 ->
  snd (update_measurement m2 (snd (update_measurement m1 db)))
  = snd (update_measurement m2 db).
Proof.
  intros Hid. rewrite !update_measurement_store, !update_store. rewrite Hid.
  destruct (BslMeasurementSchema.id m2) as [k|]; [|done].
  destruct (db !! k) as [old|] eqn:Hk.
  - rewrite lookup_insert_eq. by rewrite insert_insert_eq.
  - by rewrite Hk.
Qed.

Lemma update_last_write_wins_witness :
  snd (update_measurement (m_id 1) (snd (update_measurement (m_id 1) db1)))
  = snd (update_measurement (m_id 1) db1).
Proof. apply (update_last_write_wins (m_id 1) (m_id 1) db1). reflexivity. Defined.


(** ** Delete, further *)

(** A delete removes the row of its id and no other: the ids left are
    the ids minus that one, the other rows are as they were, and the
    table shrinks by one row when the id was there. *)
Theorem delete_keeps_other_rows (k : Z) (db : Table) :
  let db' := snd (delete_measurement k db) in
  dom db' = dom db ∖ {[k]}
  /\ db' !! k = None
  /\ (forall j, j <> k ->
        db' !! j = db !! j
        /\ fst (get_measurement j db') = fst (get_measurement j db))
  /\ (is_Some (db !! k) -> S (size db') = size db).
Proof.
  unfold delete_measurement, BslMeasurementModel.delete. cbn [snd].
  split; [apply dom_delete_L|]. split; [apply lookup_delete_eq|]. split.
  - intros j Hj. rewrite !get_measurement_eq. by rewrite lookup_delete_ne.
  - intros [r Hr]. rewrite (map_size_delete_Some _ _ (mk_is_Some _ _ Hr)).
    assert (size db <> 0%nat); [|lia].
    intros Hz. apply map_size_empty_inv in Hz. subst db. by rewrite lookup_empty in Hr.
Qed.

Lemma delete_keeps_other_rows_witness :
  S (size (snd (delete_measurement 1 db1))) = size db1.
Proof.
  apply (delete_keeps_other_rows 1 db1).
  exists {| row_bsl := d0_0; row_type := RANDOM; row_date := date1; row_time := time1 |}.
  reflexivity.
Defined.

(** Writes to different ids can be swapped: two deletes in either order,
    an update and a delete of another id, two updates of different ids
    leave the same table. *)
Theorem writes_to_distinct_ids_commute (m1 m2 : BslMeasurementSchema.t)
    (k1 k2 : Z) (db : Table) :
  snd (delete_measurement k1 (snd (delete_measurement k2 db)))
    = snd (delete_measurement k2 (snd (delete_measurement k1 db)))
  /\ (BslMeasurementSchema.id m1 <> Some k2 ->
      snd (update_measurement m1 (snd (delete_measurement k2 db)))
      = snd (delete_measurement k2 (snd (update_measurement m1 db))))
  /\ (BslMeasurementSchema.id m1 <> BslMeasurementSchema.id m2 ->
      snd (update_measurement m1 (snd (update_measurement m2 db)))
      = snd (update_measurement m2 (snd (update_measurement m1 db)))).
Proof.
  unfold delete_measurement, BslMeasurementModel.delete. cbn [snd].
  rewrite !update_measurement_store, !update_store.
  split; [apply delete_delete|]. split.
  - intros Hne. destruct (BslMeasurementSchema.id m1) as [i|]; [|done].
    assert (i <> k2) as Hi by congruence.
    rewrite lookup_delete_ne by done.
    destruct (db !! i); [|done]. by rewrite delete_insert_ne.
  - intros Hne.
    destruct (BslMeasurementSchema.id m1) as [i|], (BslMeasurementSchema.id m2) as [j|];
      try done.
    assert (i <> j) as Hij by congruence.
    destruct (db !! i) as [ri|] eqn:Hi, (db !! j) as [rj|] eqn:Hj;
      rewrite ?lookup_insert_ne, ?Hi, ?Hj by done; try done.
    by apply insert_insert_ne.
Qed.

Lemma writes_to_distinct_ids_commute_witness :
  snd (update_measurement (m_id 1) (snd (delete_measurement 7 db1)))
  = snd (delete_measurement 7 (snd (update_measurement (m_id 1) db1))).
Proof.
  apply (proj1 (proj2 (writes_to_distinct_ids_commute (m_id 1) (m_id 1) 1 7 db1))).
  discriminate.
Defined.

(** ** Requests *)

Lemma with_body_create_eq (now : Clock) (b : Body) (db : Table) :
  with_body b (create_measurement now) db
  = match BslMeasurementSchema.model_validate b with
    | inl errs => (RequestValidationError errs, db)
    | inr m =>
        match BslMeasurementSchema.id m with
        | Some _ =>
            (Uncaught (DatabaseError None "ID should be null for new measurements"), db)
        | None =>
            let row := BslMeasurementModel.insert_row now (BslMeasurementModel.of_dump m) in
            (Returned HTTP_201_CREATED
               (Measurement (from_attributes (BslMeasurementModel.load (next_id db) row))),
             <[next_id db := row]> db)
        end
    end.
Proof.
  unfold with_body. destruct (BslMeasurementSchema.model_validate b) as [errs|m]; [done|].
  destruct (BslMeasurementSchema.id m) as [k|] eqn:Hid.
  - unfold create_measurement, BslMeasurementModel.create. by rewrite Hid.
  - unfold create_measurement. by rewrite (create_eq now m db Hid).
Qed.

Lemma with_body_update_eq (b : Body) (db : Table) :
  with_body b update_measurement db
  = match BslMeasurementSchema.model_validate b with
    | inl errs => (RequestValidationError errs, db)
    | inr m =>
        match BslMeasurementSchema.id m with
        | Some k =>
            match db !! k with
            | Some _ =>
                (Returned HTTP_201_CREATED
                   (Measurement
                      (from_attributes
                         (BslMeasurementModel.load k
                            {| row_bsl := DECIMAL_scale_1 (BslMeasurementSchema.bsl m);
                               row_type := BslMeasurementSchema.type m;
                               row_date := BslMeasurementSchema.date m;
                               row_time := BslMeasurementSchema.time m |}))),
                 <[k := {| row_bsl := DECIMAL_scale_1 (BslMeasurementSchema.bsl m);
                           row_type := BslMeasurementSchema.type m;
                           row_date := BslMeasurementSchema.date m;
                           row_time := BslMeasurementSchema.time m |}]> db)
            | None =>
                (HTTPException HTTP_404_NOT_FOUND "No measurement with that ID", db)
            end
        | None => (HTTPException HTTP_404_NOT_FOUND "No measurement with that ID", db)
        end
    end.
Proof.
  unfold with_body. destruct (BslMeasurementSchema.model_validate b) as [errs|m]; [done|].
  destruct (BslMeasurementSchema.id m) as [k|] eqn:Hid.
  - destruct (db !! k) as [old|] eqn:Hk.
    + unfold update_measurement.
      rewrite (update_found m db k Hid (mk_is_Some _ _ Hk)).
      done.
    + unfold update_measurement, BslMeasurementModel.update. rewrite Hid.
      unfold BslMeasurementModel.scalar_by_id, mbind, Session_bind, bind.
      by rewrite Hk.
  - unfold update_measurement, BslMeasurementModel.update. by rewrite Hid.
Qed.




(** The reads of a sequence of requests can be left out: the table at
    the end is the same. *)
Theorem run_without_reads (reqs : list (Clock * Request)) (db : Table) :
  run (filter (fun cr => is_read (snd cr) = false) reqs) db = run reqs db.
Proof.
  unfold run. revert db. induction reqs as [|[now req] reqs IH]; intros db; [done|].
  rewrite filter_cons. cbn [snd]. case_decide as Hr.
  - cbn [fold_left]. apply IH.
  - cbn [fold_left]. rewrite <- IH. f_equal.
    destruct req as [|k| | |]; try done.
    cbn [handle]. by rewrite get_measurement_eq.
Qed.

(** ** Validation, further *)

(** A body validates to an instance exactly when its value is there and
    passes the constraint in force (it is finite), its type is absent (the instance is then
    FASTING) or the value of the type of the instance, and its date and
    time are there; the id is passed on as it is, null or not. *)
Theorem model_validate_accepts (b : Body) (m : BslMeasurementSchema.t) :
  BslMeasurementSchema.model_validate b = inr m
  <-> body_bsl b = Some (BslMeasurementSchema.bsl m)
      /\ BslMeasurementSchema.bsl_constraint (BslMeasurementSchema.bsl m) = None
      /\ BslMeasurementSchema.id m = body_id b
      /\ match body_type b with
         | None => BslMeasurementSchema.type m = FASTING
         | Some s => s = MeasurementTypes_value (BslMeasurementSchema.type m)
         end
      /\ body_date b = Some (BslMeasurementSchema.date m)
      /\ body_time b = Some (BslMeasurementSchema.time m).
Proof.
  destruct b as [bi bb bt bd btm], m as [i x ty d tm]. cbn.
  unfold BslMeasurementSchema.model_validate, BslMeasurementSchema.validate_bsl,
    BslMeasurementSchema.validate_type, BslMeasurementSchema.validate_required.
  cbn. split.
  - destruct bb as [y|]; [|done].
    destruct (BslMeasurementSchema.bsl_constraint y) eqn:Hy; [done|].
    destruct bt as [s|].
    + destruct (MeasurementTypes_of_value s) as [ty'|] eqn:Hs; [|done].
      apply MeasurementTypes_of_value_Some in Hs.
      destruct bd, btm; try done. by intros [= -> -> -> -> ->].
    + destruct bd, btm; try done. by intros [= -> -> <- -> ->].
  - intros (-> & Hx & -> & Hty & -> & ->). rewrite Hx.
    destruct bt as [s|].
    + apply MeasurementTypes_of_value_Some in Hty. by rewrite Hty.
    + by rewrite Hty.
Qed.

#[local] Set Warnings "-clear-no-such-hyp".

(** A body that does not validate is answered with at least one error,
    at most one for each of the fields bsl, type, date and time; every
    field that fails is in the list, not only the first one. *)
Theorem model_validate_errors (b : Body) (errs : ValidationError) :
  BslMeasurementSchema.model_validate b = inl errs ->
  errs <> []
  /\ NoDup errs.*1
  /\ forall f e,
       (f, e) ∈ errs
       <-> (f = "bsl"%string
            /\ BslMeasurementSchema.validate_bsl (body_bsl b) = inl e)
           \/ (f = "type"%string
               /\ BslMeasurementSchema.validate_type (body_type b) = inl e)
           \/ (f = "date"%string /\ e = missing /\ body_date b = None)
           \/ (f = "time"%string /\ e = missing /\ body_time b = None).
Proof.
  unfold BslMeasurementSchema.model_validate.
  destruct (BslMeasurementSchema.validate_bsl (body_bsl b)) as [eb|x],
    (BslMeasurementSchema.validate_type (body_type b)) as [et|ty],
    (body_date b) as [d|], (body_time b) as [tm|];
    cbn [BslMeasurementSchema.validate_required BslMeasurementSchema.errors_of app];
    intros [= <-]; (split; [done|]);
    (split; [cbn; repeat constructor; rewrite ?elem_of_cons, ?elem_of_nil; naive_solver|]);
    intros f e; rewrite ?elem_of_cons, ?elem_of_nil; naive_solver.
Qed.

Lemma model_validate_errors_witness :
  let errs := [("date"%string, missing); ("time"%string, missing)] in
  errs <> []
  /\ NoDup errs.*1
  /\ forall f e,
       (f, e) ∈ errs
       <-> (f = "bsl"%string
            /\ BslMeasurementSchema.validate_bsl (body_bsl body_no_date_time) = inl e)
           \/ (f = "type"%string
               /\ BslMeasurementSchema.validate_type (body_type body_no_date_time)
                  = inl e)
           \/ (f = "date"%string /\ e = missing /\ body_date body_no_date_time = None)
           \/ (f = "time"%string /\ e = missing /\ body_time body_no_date_time = None).
Proof.
  apply (model_validate_errors body_no_date_time
           [("date"%string, missing); ("time"%string, missing)]).
  reflexivity.
Defined.

(** The representation of a member of [MeasurementTypes] is its value,
    the two members have different representations, and the lookup by
    value brings the member back. *)
Theorem MeasurementTypes_repr_roundtrip (t t' : MeasurementTypes) :
  MeasurementTypes_of_value (MeasurementTypes_repr t) = Some t
  /\ BslMeasurementSchema.validate_type (Some (MeasurementTypes_repr t)) = inr t
  /\ (MeasurementTypes_repr t = MeasurementTypes_repr t' <-> t = t').
Proof.
  split; [by destruct t|]. split; [by destruct t|].
  split; [|by intros ->]. by destruct t, t'.
Qed.

(** ** The migration, further *)

(** On a database without a table bsls the upgrade creates it with its
    four columns and touches no other table, and the downgrade then
    brings the database back; on a database that has a table bsls the
    upgrade fails, and on one that has none the downgrade fails. *)
Theorem upgrade_downgrade (s : Schema) :
  (s !! "bsls"%string = None ->
   exists s', upgrade s = inr s'
     /\ s' !! "bsls"%string = Some upgrade_columns
     /\ (forall n, n <> "bsls"%string -> s' !! n = s !! n)
     /\ downgrade s' = inr s
     /\ upgrade s' = inl (table_already_exists "bsls")
     /\ downgrade s = inl (no_such_table "bsls"))
  /\ (is_Some (s !! "bsls"%string) ->
      upgrade s = inl (table_already_exists "bsls")
      /\ exists s', downgrade s = inr s'
           /\ s' !! "bsls"%string = None
           /\ forall n, n <> "bsls"%string -> s' !! n = s !! n).
Proof.
  unfold upgrade, downgrade, create_table, drop_table. split.
  - intros Hs. rewrite Hs. eexists. split; [reflexivity|].
    rewrite lookup_insert_eq. split; [done|].
    split; [intros n Hn; by rewrite lookup_insert_ne|].
    split; [|done]. by rewrite delete_insert_eq, delete_id.
  - intros [cols Hs]. rewrite Hs. split; [done|].
    eexists. split; [reflexivity|]. split; [apply lookup_delete_eq|].
    intros n Hn. by rewrite lookup_delete_ne.
Qed.

Lemma upgrade_downgrade_witness :
  exists s', upgrade ∅ = inr s'
    /\ s' !! "bsls"%string = Some upgrade_columns
    /\ (forall n, n <> "bsls"%string -> s' !! n = (∅ : Schema) !! n)
    /\ downgrade s' = inr ∅
    /\ upgrade s' = inl (table_already_exists "bsls")
    /\ downgrade ∅ = inl (no_such_table "bsls").
Proof. apply (proj1 (upgrade_downgrade ∅)). reflexivity. Defined.

(** ** Settings *)

Lemma get_settings_calls_cached {E : Type} (inits : list (E + Settings.t))
    (s : Settings.t) :
  get_settings_calls inits (Some s) = replicate (length inits) (inr s).
Proof.
  induction inits as [|init inits IH]; [done|].
  cbn [get_settings_calls get_settings length replicate]. by rewrite IH.
Qed.

(** Over any sequence of calls of [get_settings], whatever [Settings()]
    does at each call: as long as it raises, the call raises the same
    error and nothing is cached; from the first call at which it returns,
    every call returns that first object, also where [Settings()] would
    by then raise or build other settings. *)
Theorem get_settings_cached {E : Type} (inits : list (E + Settings.t)) :
  (Forall (fun init => exists e, init = inl e) inits
   /\ get_settings_calls inits None = inits)
  \/ exists before s after,
       inits = before ++ inr s :: after
       /\ Forall (fun init => exists e, init = inl e) before
       /\ get_settings_calls inits None
          = before ++ replicate (S (length after)) (inr s).
Proof.
  induction inits as [|init inits IH]; [left; by split|].
  cbn [get_settings_calls get_settings].
  destruct init as [e|s].
  - destruct IH as [[Hall Hcalls]|(before & s & after & -> & Hb & Hcalls)].
    + left. split; [constructor; eauto|]. by rewrite Hcalls.
    + right. exists (inl e :: before), s, after.
      split; [done|]. split; [constructor; eauto|].
      cbn [app]. by rewrite Hcalls.
  - right. exists [], s, inits. split; [done|]. split; [constructor|].
    cbn [length replicate app]. f_equal. apply get_settings_calls_cached.
Qed.

(** ** An instance of the agreement of the migration with the model *)

Lemma upgrade_columns_agree_witness :
  exists c', find_column "date" model_columns = Some c'
    /\ type_ c' = SaDate /\ primary_key c' = false
    /\ server_default c' = Some current_date.
Proof.
  apply (upgrade_columns_agree
           {| name := "date"; type_ := SaDate; primary_key := false;
              autoincrement := None; nullable := true;
              server_default := Some current_date |}).
  unfold upgrade_columns. do 2 apply list_elem_of_further. apply list_elem_of_here.
Defined.

(** ** Values, further *)

(** A body whose value is an infinity or NaN is rejected, on create and
    on update, with the error that the value is not finite, and the
    table is left as it was; every tenth between 0 and 100 passes the
    constraint in force. *)
Theorem bsl_not_finite_rejected (x : Decimal) :
  (value_in_spec x -> BslMeasurementSchema.bsl_constraint x = None)
  /\ (Decimal_is_finite x = false ->
      forall now b db, body_bsl b = Some x ->
        exists errs,
          ("bsl"%string, decimal_error finite_number) ∈ errs
          /\ handle now (POST b) db = (RequestValidationError errs, db)
          /\ handle now (PUT b) db = (RequestValidationError errs, db)).
Proof.
  split.
  - intros (k & _ & Ht). unfold is_tenths in Ht.
    destruct x as [c e|n|]; [done|by destruct n|done].
  - intros Hx now b db Hb.
    unfold handle, with_body, BslMeasurementSchema.model_validate.
    rewrite Hb. unfold BslMeasurementSchema.validate_bsl,
      BslMeasurementSchema.bsl_constraint. rewrite Hx.
    destruct (BslMeasurementSchema.validate_type _),
      (BslMeasurementSchema.validate_required (body_date b)),
      (BslMeasurementSchema.validate_required (body_time b));
      (eexists; split; [|split; reflexivity]); error_listed.
Qed.

Lemma bsl_not_finite_rejected_witness :
  exists errs,
    ("bsl"%string, decimal_error finite_number) ∈ errs
    /\ handle clock0
         (POST {| body_id := None; body_bsl := Some (Infinity false);
                  body_type := None; body_date := Some date1;
                  body_time := Some time1 |}) db1
       = (RequestValidationError errs, db1)
    /\ handle clock0
         (PUT {| body_id := None; body_bsl := Some (Infinity false);
                 body_type := None; body_date := Some date1;
                 body_time := Some time1 |}) db1
       = (RequestValidationError errs, db1).
Proof.
  apply (proj2 (bsl_not_finite_rejected (Infinity false))); reflexivity.
Defined.



(** ** What the table keeps *)

Lemma model_validate_finite (b : Body) (m : BslMeasurementSchema.t) :
  BslMeasurementSchema.model_validate b = inr m ->
  Decimal_is_finite (BslMeasurementSchema.bsl m) = true.
Proof.
  unfold BslMeasurementSchema.model_validate, BslMeasurementSchema.validate_bsl,
    BslMeasurementSchema.bsl_constraint.
  destruct (body_bsl b) as [x|]; [|done].
  destruct (Decimal_is_finite x) eqn:Hx; [|done].
  destruct (BslMeasurementSchema.validate_type _),
    (BslMeasurementSchema.validate_required (body_date b)),
    (BslMeasurementSchema.validate_required (body_time b)); try done.
  by intros [= <-].
Qed.

(** Serving a request keeps the values of the table at one fractional
    digit. *)
Lemma handle_table_scaled (now : Clock) (req : Request) (db : Table) :
  table_scaled db -> table_scaled (snd (handle now req db)).
Proof.
  intros Hdb. destruct req as [|k|b|b|k]; cbn [handle].
  - done.
  - by rewrite get_measurement_eq.
  - rewrite with_body_create_eq.
    destruct (BslMeasurementSchema.model_validate b) as [errs|m] eqn:Hv; [done|].
    destruct (BslMeasurementSchema.id m); [done|].
    cbv zeta. cbn [snd]. apply map_Forall_insert_2; [|done].
    cbn. apply DECIMAL_scale_1_scaled. by eapply model_validate_finite.
  - rewrite with_body_update_eq.
    destruct (BslMeasurementSchema.model_validate b) as [errs|m] eqn:Hv; [done|].
    destruct (BslMeasurementSchema.id m) as [k|]; [|done].
    destruct (db !! k); [|done].
    cbn [snd]. apply map_Forall_insert_2; [|done].
    cbn. apply DECIMAL_scale_1_scaled. by eapply model_validate_finite.
  - change (table_scaled (base.delete k db)). by apply map_Forall_delete.
Qed.

Lemma run_table_scaled (reqs : list (Clock * Request)) (db : Table) :
  table_scaled db -> table_scaled (run reqs db).
Proof.
  unfold run. revert db. induction reqs as [|[now req] reqs IH]; intros db Hdb.
  - done.
  - cbn [fold_left]. apply IH. by apply handle_table_scaled.
Qed.

(** After any sequence of requests served from the empty table, every
    row of the table holds a value with one fractional digit, or an
    infinite value where the value sent was beyond the floats; so does
    every measurement a list or a read returns, each with its id. *)
Theorem stored_values_scaled (reqs : list (Clock * Request)) :
  (forall k r, run reqs ∅ !! k = Some r -> scaled (row_bsl r))
  /\ (forall ms,
        fst (list_measurements (run reqs ∅)) = Returned HTTP_200_OK ms ->
        Forall (fun m => BslMeasurementSchema.id m <> None
                         /\ scaled (BslMeasurementSchema.bsl m)) ms)
  /\ forall k m,
       fst (get_measurement k (run reqs ∅)) = Returned HTTP_200_OK m ->
       BslMeasurementSchema.id m = Some k /\ scaled (BslMeasurementSchema.bsl m).
Proof.
  assert (table_scaled (run reqs ∅)) as Hok.
  { apply run_table_scaled. apply map_Forall_empty. }
  split; [exact Hok|]. split.
  - intros ms [= <-].
    rewrite Forall_fmap, Forall_fmap. apply Forall_forall.
    intros [k r] Hkr. apply elem_of_map_to_list in Hkr.
    specialize (Hok k r Hkr). by split.
  - intros k m. rewrite get_measurement_eq. cbn [fst].
    destruct (run reqs ∅ !! k) as [r|] eqn:Hr; [|done].
    intros [= <-]. specialize (Hok k r Hr). by split.
Qed.

Lemma stored_values_scaled_witness :
  BslMeasurementSchema.id
    {| BslMeasurementSchema.id := Some 2; BslMeasurementSchema.bsl := Finite 55 (-1);
       BslMeasurementSchema.type := FASTING;
       BslMeasurementSchema.date := date1; BslMeasurementSchema.time := time1 |}
  = Some 2
  /\ scaled (Finite 55 (-1)).
Proof.
  apply (proj2 (proj2 (stored_values_scaled
                         [(clock0, POST body_200); (clock0, POST body_5_55);
                          (clock0, PUT body_id_1); (clock0, DELETE 7)])) 2).
  by vm_compute.
Defined.
